(** * The Reolink config flow (homeassistant/components/reolink/config_flow.py)

    A shallow embedding of [ReolinkFlowHandler] and
    [ReolinkOptionsFlowHandler]: the wizard that registers a camera or NVR,
    repairs the credentials of a registered one, and edits its streaming
    protocol.  Python dicts are finite maps, [self] and the host registry are
    threaded explicitly, and the calls that reach the device client or the
    registry are recorded in a log. *)

From Stdlib Require Import ZArith.
From stdpp Require Import gmap strings list fin_maps.

Open Scope string_scope.
Open Scope list_scope.

(** ** Values and dictionaries *)

(** The values a form input or an entry's data can hold ([dict[str, Any]]). *)
Inductive value :=
| VNone
| VStr (s : string)
| VInt (n : Z)
| VBool (b : bool).

#[global] Instance value_eq_dec : EqDecision value.
Proof. solve_decision. Defined.

Abbreviation dict := (gmap string value).
Abbreviation strdict := (gmap string string).

(** ** Constants *)

(** Modelled from the spec: [homeassistant.const] and [.const] are not part of
    the sources; the keys are the field names of the spec's sections 3, 4.1
    and 4.2 ([username], [password], [host], [port], [use_https],
    [protocol]). *)
Definition CONF_HOST : string := "host".
Definition CONF_PASSWORD : string := "password".
Definition CONF_PORT : string := "port".
Definition CONF_USERNAME : string := "username".
Definition CONF_USE_HTTPS : string := "use_https".
Definition CONF_PROTOCOL : string := "protocol".

(** ** Exceptions *)

(** The exception classes the handlers of [async_step_user] name; any other
    class is [OtherClass]. *)
Inductive ExcClass :=
| UserNotAdmin
| CredentialsInvalidError
| ApiError
| ReolinkError
| ReolinkException
| OtherClass (name : string).

#[global] Instance ExcClass_eq_dec : EqDecision ExcClass.
Proof. solve_decision. Defined.

(** An exception instance ([Exception] or a subclass): the classes it is an
    instance of (its own class and the ancestors), and [str(err)].  The class
    hierarchy of the client library is not fixed here: every combination of
    memberships is covered. *)
Record PyException := {
  exc_classes : list ExcClass;
  exc_str : string
}.

Definition isinstance (err : PyException) (c : ExcClass) : bool :=
  bool_decide (c ∈ exc_classes err).

(** ** The device client *)

(** [host.api]: the fields the flow reads. *)
Record ReolinkApi := {
  api_username : string;
  api_user_level : string;
  api_port : Z;
  api_use_https : bool;
  api_nvr_name : string
}.

(** A [ReolinkHost] object as the flow sees it: what [async_init] does
    ([None]: it returns, [Some err]: it raises [err]), [host.api] and
    [host.unique_id]. *)
Record ReolinkHostObj := {
  host_async_init : option PyException;
  host_api : ReolinkApi;
  host_unique_id : string
}.

(** ** The registry and the call log *)

(** [ConfigEntryState], the state of a registration's setup. *)
Inductive ConfigEntryState :=
| LOADED
| SETUP_ERROR
| MIGRATION_ERROR
| SETUP_RETRY
| NOT_LOADED
| FAILED_UNLOAD.

#[global] Instance ConfigEntryState_eq_dec : EqDecision ConfigEntryState.
Proof. solve_decision. Defined.

(** The sources of a flow or of a registration that the platform's duplicate
    check tells apart ([homeassistant.config_entries], not part of the
    sources). *)
Definition SOURCE_USER : string := "user".
Definition SOURCE_IGNORE : string := "ignore".
Definition SOURCE_REAUTH : string := "reauth".

Record ConfigEntry := {
  entry_id : string;
  entry_title : string;
  entry_data : dict;
  entry_options : dict;
  entry_source : string;
  entry_state : ConfigEntryState
}.

#[global] Instance ConfigEntry_eq_dec : EqDecision ConfigEntry.
Proof. solve_decision. Defined.

(** Calls with an effect outside the flow object. *)
Inductive Call :=
| Call_async_init
| Call_stop
| Call_async_update_entry (id : string) (data : dict)
| Call_async_reload (id : string).

#[global] Instance Call_eq_dec : EqDecision Call.
Proof. solve_decision. Defined.

(** [self.hass]: the persisted registrations, keyed by unique id, and the
    log of calls made so far (oldest first). *)
Record HomeAssistant := {
  config_entries : gmap string ConfigEntry;
  calls : list Call
}.

Definition log (hass : HomeAssistant) (c : Call) : HomeAssistant :=
  {| config_entries := config_entries hass; calls := calls hass ++ [c] |}.

(** ** Forms and flow results *)

Inductive Validator :=
| v_str
| v_bool
| v_positive_int
| v_In (choices : list string).

Inductive Marker :=
| Required (key : string) (default : value)
| Optional (key : string).

(** [vol.Schema({...})]: the markers in the order they are written. *)
Definition Schema := list (Marker * Validator).

Inductive FlowResult :=
| FlowResult_form (step_id : string) (data_schema : option Schema)
    (errors : option strdict) (description_placeholders : option strdict)
| FlowResult_create_entry (title : option string) (data : dict)
    (options : option dict)
| FlowResult_abort (reason : string).

Definition async_show_form (step_id : string) (data_schema : option Schema)
    (errors : option strdict) (description_placeholders : option strdict)
  : FlowResult :=
  FlowResult_form step_id data_schema errors description_placeholders.

Definition async_create_entry (title : option string) (data : dict)
    (options : option dict) : FlowResult :=
  FlowResult_create_entry title data options.

Definition async_abort (reason : string) : FlowResult :=
  FlowResult_abort reason.

(** A step either returns a result or raises [KeyError] on a missing key. *)
Inductive Outcome (A : Type) :=
| Returned (a : A)
| KeyError (key : string).
Arguments Returned {A} a.
Arguments KeyError {A} key.

(** The default a schema gives to a required field. *)
Fixpoint schema_default (s : Schema) (key : string) : option value :=
  match s with
  | [] => None
  | (Required k d, _) :: s' =>
      if decide (k = key) then Some d else schema_default s' key
  | (Optional _, _) :: s' => schema_default s' key
  end.

(** ** ReolinkOptionsFlowHandler *)

Record ReolinkOptionsFlowHandler := {
  config_entry : ConfigEntry
}.

Definition ReolinkOptionsFlowHandler_init (entry : ConfigEntry)
  : ReolinkOptionsFlowHandler :=
  {| config_entry := entry |}.

Definition async_step_init (self : ReolinkOptionsFlowHandler)
    (user_input : option dict) : Outcome FlowResult :=
  match user_input with
  | Some user_input => Returned (async_create_entry None user_input None)
  | None =>
      match entry_options (config_entry self) !! CONF_PROTOCOL with
      | Some current =>
          Returned (async_show_form "init"
            (Some [(Required CONF_PROTOCOL current,
                    v_In ["rtsp"; "rtmp"; "flv"])])
            None None)
      | None => KeyError CONF_PROTOCOL
      end
  end.

(** Modelled from the spec: the host platform's handling of a finished
    options step is not part of the sources.  Section 4.2: "If input is
    present, persist it verbatim as the new options and terminate
    successfully"; section 8: "persisted options become {protocol: rtmp},
    result is a successful entry update".  The boolean tells whether the
    submission terminated successfully. *)
Definition options_flow_finish (entry : ConfigEntry)
    (o : Outcome FlowResult) : ConfigEntry * bool :=
  match o with
  | Returned (FlowResult_create_entry _ data _) =>
      ({| entry_id := entry_id entry; entry_title := entry_title entry;
          entry_data := entry_data entry; entry_options := data;
          entry_source := entry_source entry;
          entry_state := entry_state entry |}, true)
  | _ => (entry, false)
  end.

(** One submission of the options form for a registration. *)
Definition submit_options (entry : ConfigEntry) (user_input : dict)
  : ConfigEntry * bool :=
  options_flow_finish entry
    (async_step_init (ReolinkOptionsFlowHandler_init entry) (Some user_input)).

(** ** ReolinkFlowHandler *)

(** [self]: the fields set by [__init__], and the flow's context: the
    unique id that [async_set_unique_id] records in it, and the source with
    which the platform started the flow. *)
Record ReolinkFlowHandler := {
  _host : value;
  _username : value;
  _password : value;
  _reauth : bool;
  context_unique_id : option string;
  context_source : string
}.

(** [__init__], on a flow that the user starts. *)
Definition ReolinkFlowHandler_init : ReolinkFlowHandler :=
  {| _host := VNone; _username := VStr "admin"; _password := VNone;
     _reauth := false; context_unique_id := None;
     context_source := SOURCE_USER |}.

(** *** Registry operations used by the flow *)

(** Modelled from the spec: [async_set_unique_id] is the host platform's and
    not part of the sources.  Section 6: "setUniqueId(id) ->
    existingRegistrationOrNone"; section 3: registrations are keyed by
    [uniqueId]. *)
Definition async_set_unique_id (self : ReolinkFlowHandler)
    (hass : HomeAssistant) (unique_id : string)
  : ReolinkFlowHandler * option ConfigEntry :=
  ({| _host := _host self; _username := _username self;
      _password := _password self; _reauth := _reauth self;
      context_unique_id := Some unique_id;
      context_source := context_source self |},
   config_entries hass !! unique_id).

Definition with_data (data : dict) (entry : ConfigEntry) : ConfigEntry :=
  {| entry_id := entry_id entry; entry_title := entry_title entry;
     entry_data := data; entry_options := entry_options entry;
     entry_source := entry_source entry; entry_state := entry_state entry |}.

(** Modelled from the spec: [hass.config_entries.async_update_entry] is not
    part of the sources.  Section 6: "updateRegistrationData(existing,
    newData) -> changed: bool"; section 4.1: "overwrite the persisted
    registration's data in place; if the overwrite changes anything ...".
    The entry object is identified by its [entry_id]. *)
Definition async_update_entry (hass : HomeAssistant) (entry : ConfigEntry)
    (data : dict) : HomeAssistant * bool :=
  let hass := log hass (Call_async_update_entry (entry_id entry) data) in
  if decide (entry_data entry = data) then (hass, false)
  else
    ({| config_entries :=
          (λ e, if decide (entry_id e = entry_id entry)
                then with_data data e else e) <$> config_entries hass;
        calls := calls hass |}, true).

(** Modelled from the spec: [hass.config_entries.async_reload] is not part of
    the sources.  Section 6: "reloadRegistration(id)"; only the call is
    recorded. *)
Definition async_reload (hass : HomeAssistant) (id : string) : HomeAssistant :=
  log hass (Call_async_reload id).

(** The states in which the platform reloads a registration whose data it
    has updated. *)
Definition reloads_on_update (state : ConfigEntryState) : bool :=
  match state with
  | LOADED | SETUP_RETRY => true
  | _ => false
  end.

(** Modelled from the spec: [_abort_if_unique_id_configured] is the host
    platform's and not part of the sources.  Section 6 gives its signature,
    "abortIfUniqueIdConfigured(updates)", and section 4.1, step 5, its abort
    reason.  The spec's "the existing registration is left untouched" is not
    what the platform's helper does with the [updates] that line 134 passes:
    for the registration with the flow's unique id it writes
    [{**entry.data, **updates}] through [async_update_entry]; when that
    changed something and the registration is loaded or retrying its setup
    it schedules the reload; and it raises [AbortFlow("already_configured")]
    unless the registration is an ignored one and the flow was started by
    the user.  [Some reason] stands for the raised [AbortFlow], which ends
    the step with the abort result of that reason. *)
Definition _abort_if_unique_id_configured (self : ReolinkFlowHandler)
    (hass : HomeAssistant) (updates : dict) : HomeAssistant * option string :=
  match context_unique_id self with
  | None => (hass, None)
  | Some unique_id =>
      match config_entries hass !! unique_id with
      | Some entry =>
          let '(hass, changed) :=
            async_update_entry hass entry (updates ∪ entry_data entry) in
          let hass :=
            if changed && reloads_on_update (entry_state entry)
            then async_reload hass (entry_id entry) else hass in
          if bool_decide (entry_source entry = SOURCE_IGNORE)
             && bool_decide (context_source self = SOURCE_USER)
          then (hass, None)
          else (hass, Some "already_configured")
      | None => (hass, None)
      end
  end.

Section Flow.

(** The client class and the default protocol come from modules that are not
    part of the sources ([.host], [.const]): the flow is stated for every
    client behaviour and every default. *)
Variable ReolinkHost : dict → dict → ReolinkHostObj.
Variable DEFAULT_PROTOCOL : string.

Definition DEFAULT_OPTIONS : dict := {[ CONF_PROTOCOL := VStr DEFAULT_PROTOCOL ]}.

(** Lines 98-115: [await host.async_init()] under its handlers, tried in the
    order they are written.  Returns [errors] and [placeholders]. *)
Definition try_async_init (host : ReolinkHostObj) (errors placeholders : strdict)
  : strdict * strdict :=
  match host_async_init host with
  | None => (errors, placeholders)
  | Some err =>
      if isinstance err UserNotAdmin then
        (<[CONF_USERNAME := "not_admin"]> errors,
         <["userlevel" := api_user_level (host_api host)]>
           (<["username" := api_username (host_api host)]> placeholders))
      else if isinstance err CredentialsInvalidError then
        (<[CONF_HOST := "invalid_auth"]> errors, placeholders)
      else if isinstance err ApiError then
        (<[CONF_HOST := "api_error"]> errors,
         <["error" := exc_str err]> placeholders)
      else if isinstance err ReolinkError || isinstance err ReolinkException then
        (<[CONF_HOST := "cannot_connect"]> errors,
         <["error" := exc_str err]> placeholders)
      else
        (<[CONF_HOST := "unknown"]> errors,
         <["error" := exc_str err]> placeholders)
  end.

(** Lines 142-162: the form of step [user]. *)
Definition user_form (self : ReolinkFlowHandler) (errors placeholders : strdict)
  : FlowResult :=
  let data_schema : Schema :=
    [ (Required CONF_USERNAME (_username self), v_str);
      (Required CONF_PASSWORD (_password self), v_str);
      (Required CONF_HOST (_host self), v_str) ] in
  let data_schema :=
    if decide (errors = ∅) then data_schema
    else (data_schema ++ [ (Optional CONF_PORT, v_positive_int);
                           (Optional CONF_USE_HTTPS, v_bool) ])%list in
  async_show_form "user" (Some data_schema) (Some errors) (Some placeholders).

Definition async_step_user (self : ReolinkFlowHandler) (hass : HomeAssistant)
    (user_input : option dict)
  : ReolinkFlowHandler * HomeAssistant * FlowResult :=
  let errors : strdict := ∅ in
  let placeholders : strdict := {[ "error" := "" ]} in
  match user_input with
  | Some user_input =>
      let host := ReolinkHost user_input DEFAULT_OPTIONS in
      let hass := log hass Call_async_init in
      let '(errors, placeholders) := try_async_init host errors placeholders in
      let hass := log hass Call_stop in
      if decide (errors = ∅) then
        let user_input :=
          <[CONF_PORT := VInt (api_port (host_api host))]> user_input in
        let user_input :=
          <[CONF_USE_HTTPS := VBool (api_use_https (host_api host))]>
            user_input in
        let '(self, existing_entry) :=
          async_set_unique_id self hass (host_unique_id host) in
        match existing_entry, _reauth self with
        | Some existing_entry, true =>
            let '(hass, changed) :=
              async_update_entry hass existing_entry user_input in
            let hass :=
              if changed then async_reload hass (entry_id existing_entry)
              else hass in
            (self, hass, async_abort "reauth_successful")
        | _, _ =>
            match _abort_if_unique_id_configured self hass user_input with
            | (hass, Some reason) => (self, hass, FlowResult_abort reason)
            | (hass, None) =>
                (self, hass,
                 async_create_entry (Some (api_nvr_name (host_api host)))
                   user_input (Some DEFAULT_OPTIONS))
            end
        end
      else (self, hass, user_form self errors placeholders)
  | None => (self, hass, user_form self errors placeholders)
  end.

Definition async_step_reauth_confirm (self : ReolinkFlowHandler)
    (hass : HomeAssistant) (user_input : option dict)
  : ReolinkFlowHandler * HomeAssistant * FlowResult :=
  match user_input with
  | Some _ => async_step_user self hass None
  | None => (self, hass, async_show_form "reauth_confirm" None None None)
  end.

Definition async_step_reauth (self : ReolinkFlowHandler) (hass : HomeAssistant)
    (entry_data : dict)
  : Outcome (ReolinkFlowHandler * HomeAssistant * FlowResult) :=
  match entry_data !! CONF_HOST with
  | None => KeyError CONF_HOST
  | Some host =>
      match entry_data !! CONF_USERNAME with
      | None => KeyError CONF_USERNAME
      | Some username =>
          match entry_data !! CONF_PASSWORD with
          | None => KeyError CONF_PASSWORD
          | Some password =>
              let self :=
                {| _host := host; _username := username;
                   _password := password; _reauth := true;
                   context_unique_id := context_unique_id self;
                   context_source := context_source self |} in
              Returned (async_step_reauth_confirm self hass None)
          end
      end
  end.

End Flow.

(** [ReolinkFlowHandler.async_get_options_flow] (a static method). *)
Definition async_get_options_flow (entry : ConfigEntry)
  : ReolinkOptionsFlowHandler :=
  ReolinkOptionsFlowHandler_init entry.

(** Successive calls of step [user] on one flow object: each submission is
    the input (or none) together with the client it meets, since the device
    may answer differently from one submission to the next.  The flow object
    and [hass] are carried from call to call; the results come oldest
    first. *)
Fixpoint user_steps (DEFAULT_PROTOCOL : string) (self : ReolinkFlowHandler)
    (hass : HomeAssistant)
    (submissions : list ((dict → dict → ReolinkHostObj) * option dict))
  : ReolinkFlowHandler * HomeAssistant * list FlowResult :=
  match submissions with
  | [] => (self, hass, [])
  | (ReolinkHost, user_input) :: submissions =>
      let '(self, hass, result) :=
        async_step_user ReolinkHost DEFAULT_PROTOCOL self hass user_input in
      let '(self, hass, results) :=
        user_steps DEFAULT_PROTOCOL self hass submissions in
      (self, hass, result :: results)
  end.

(** The username, password and host a result proposes, when it is a form. *)
Definition proposes (username password host : value) (r : FlowResult) : Prop :=
  match r with
  | FlowResult_form _ (Some schema) _ _ =>
      schema_default schema CONF_USERNAME = Some username
      ∧ schema_default schema CONF_PASSWORD = Some password
      ∧ schema_default schema CONF_HOST = Some host
  | FlowResult_form _ None _ _ => False
  | _ => True
  end.

(** ** Scenarios

    Concrete clients, registries and inputs on which the statements below are
    evaluated. *)

Definition camera_api : ReolinkApi :=
  {| api_username := "admin"; api_user_level := "admin"; api_port := 443;
     api_use_https := true; api_nvr_name := "Front door" |}.

(** A device that accepts every handshake. *)
Definition accepting_camera (config options : dict) : ReolinkHostObj :=
  {| host_async_init := None; host_api := camera_api;
     host_unique_id := "ec71db000001" |}.

(** A device that rejects the credentials: [async_init] raises
    [CredentialsInvalidError], a [ReolinkError] in the client library. *)
Definition rejecting_camera (config options : dict) : ReolinkHostObj :=
  {| host_async_init :=
       Some {| exc_classes := [CredentialsInvalidError; ReolinkError];
               exc_str := "Login failed" |};
     host_api := camera_api;
     host_unique_id := "" |}.

(** A device on which the account is valid but not an administrator:
    [async_init] raises [UserNotAdmin], a [ReolinkException]. *)
Definition guest_camera (config options : dict) : ReolinkHostObj :=
  {| host_async_init :=
       Some {| exc_classes := [UserNotAdmin; ReolinkException];
               exc_str := "User 'viewer' has authorization level 'guest'" |};
     host_api :=
       {| api_username := "viewer"; api_user_level := "guest"; api_port := 443;
          api_use_https := true; api_nvr_name := "Front door" |};
     host_unique_id := "ec71db000001" |}.

Definition wrong_password_input : dict :=
  {[ CONF_USERNAME := VStr "operator"; CONF_PASSWORD := VStr "wrong";
     CONF_HOST := VStr "192.168.1.50" ]}.

(** Input of the retry form, with the optional overrides filled in. *)
Definition override_input : dict :=
  {[ CONF_USERNAME := VStr "admin"; CONF_PASSWORD := VStr "secret";
     CONF_HOST := VStr "192.168.1.50"; CONF_PORT := VInt 80;
     CONF_USE_HTTPS := VBool false ]}.

Definition registered_camera : ConfigEntry :=
  {| entry_id := "entry-1"; entry_title := "Front door";
     entry_data :=
       {[ CONF_USERNAME := VStr "admin"; CONF_PASSWORD := VStr "old";
          CONF_HOST := VStr "192.168.1.50"; CONF_PORT := VInt 443;
          CONF_USE_HTTPS := VBool true ]};
     entry_options := {[ CONF_PROTOCOL := VStr "rtsp" ]};
     entry_source := SOURCE_USER; entry_state := LOADED |}.

(** The same device, dismissed by the user when it was discovered. *)
Definition ignored_camera : ConfigEntry :=
  {| entry_id := "entry-2"; entry_title := "Front door";
     entry_data := ∅; entry_options := ∅;
     entry_source := SOURCE_IGNORE; entry_state := NOT_LOADED |}.

Definition empty_hass : HomeAssistant :=
  {| config_entries := ∅; calls := [] |}.

Definition hass_with_camera : HomeAssistant :=
  {| config_entries := {[ "ec71db000001" := registered_camera ]}; calls := [] |}.

Definition hass_with_ignored_camera : HomeAssistant :=
  {| config_entries := {[ "ec71db000001" := ignored_camera ]}; calls := [] |}.

Definition reauth_flow : ReolinkFlowHandler :=
  {| _host := VStr "192.168.1.50"; _username := VStr "admin";
     _password := VStr "old"; _reauth := true; context_unique_id := None;
     context_source := SOURCE_REAUTH |}.

(** C1 as the spec words it: the step ends with abort(already_configured) and
    the registration under [unique_id] has the data and the options it had
    before. *)
Definition duplicate_left_untouched (before : HomeAssistant)
    (unique_id : string)
    (after : ReolinkFlowHandler * HomeAssistant * FlowResult) : Prop :=
  after.2 = FlowResult_abort "already_configured"
  ∧ entry_data <$> config_entries after.1.2 !! unique_id
      = entry_data <$> config_entries before !! unique_id
  ∧ entry_options <$> config_entries after.1.2 !! unique_id
      = entry_options <$> config_entries before !! unique_id.

(** C2 as the spec words it: the form shown after a failed handshake has a
    non-empty [errors] and carries the submitted username, password and host
    as the defaults of its fields. *)
Definition form_keeps_input (r : FlowResult) (user_input : dict) : Prop :=
  ∃ schema errors placeholders,
    r = FlowResult_form "user" (Some schema) (Some errors) placeholders
    ∧ errors ≠ ∅
    ∧ ∀ key, key ∈ [CONF_USERNAME; CONF_PASSWORD; CONF_HOST] →
        schema_default schema key = user_input !! key.

(** The error taxonomy as the spec tabulates it (section 7): the client
    conditions, and the error code and form field of each. *)
Inductive ClientCondition :=
| InsufficientPrivilege
| InvalidCredentials
| DeviceApiError
| TransportFailure
| OtherFault.

Definition taxonomy_code (c : ClientCondition) : string :=
  match c with
  | InsufficientPrivilege => "not_admin"
  | InvalidCredentials => "invalid_auth"
  | DeviceApiError => "api_error"
  | TransportFailure => "cannot_connect"
  | OtherFault => "unknown"
  end.

Definition taxonomy_field (c : ClientCondition) : string :=
  match c with
  | InsufficientPrivilege => CONF_USERNAME
  | _ => CONF_HOST
  end.

(** The condition an exception of the client reports (section 6:
    AdminRequired, CredentialsInvalid, ApiError, TransportError, and any
    other fault), the more specific class first. *)
Definition condition_of (err : PyException) : ClientCondition :=
  if isinstance err UserNotAdmin then InsufficientPrivilege
  else if isinstance err CredentialsInvalidError then InvalidCredentials
  else if isinstance err ApiError then DeviceApiError
  else if isinstance err ReolinkError then TransportFailure
  else if isinstance err ReolinkException then TransportFailure
  else OtherFault.

(** * Properties of step [user] *)

Section FlowProperties.

Variable ReolinkHost : dict → dict → ReolinkHostObj.
Variable DEFAULT_PROTOCOL : string.

Local Abbreviation DEFAULTS := (DEFAULT_OPTIONS DEFAULT_PROTOCOL).
Local Abbreviation client user_input := (ReolinkHost user_input DEFAULTS).

(** The data handed to the registry after a successful handshake: the input
    with the client's port and transport flag written over it. *)
Local Abbreviation captured host user_input :=
  (<[CONF_USE_HTTPS := VBool (api_use_https (host_api host))]>
     (<[CONF_PORT := VInt (api_port (host_api host))]> user_input)).

Lemma captured_port host (user_input : dict) :
  captured host user_input !! CONF_PORT
    = Some (VInt (api_port (host_api host))).
Proof. rewrite lookup_insert_ne by done. apply lookup_insert_eq. Qed.

Lemma captured_use_https host (user_input : dict) :
  captured host user_input !! CONF_USE_HTTPS
    = Some (VBool (api_use_https (host_api host))).
Proof. apply lookup_insert_eq. Qed.

(** ** The handlers of [async_init] *)

Lemma try_async_init_returns host errors placeholders :
  host_async_init host = None →
  try_async_init host errors placeholders = (errors, placeholders).
Proof. intros Hinit. unfold try_async_init. by rewrite Hinit. Qed.

(** Every handler stores exactly one error code, under one key. *)
Lemma try_async_init_raises host err placeholders :
  host_async_init host = Some err →
  ∃ key code,
    (try_async_init host ∅ placeholders).1 = {[ key := code ]}
    ∧ key ∈ [CONF_USERNAME; CONF_HOST].
Proof.
  intros Hinit. unfold try_async_init. rewrite Hinit.
  destruct (isinstance err UserNotAdmin).
  { exists CONF_USERNAME, "not_admin". split; [done | set_solver]. }
  exists CONF_HOST.
  destruct (isinstance err CredentialsInvalidError);
    [eexists; split; [done | set_solver] |].
  destruct (isinstance err ApiError); [eexists; split; [done | set_solver] |].
  destruct (isinstance err ReolinkError || isinstance err ReolinkException);
    eexists; (split; [done | set_solver]).
Qed.

Lemma try_async_init_raises_nonempty host err placeholders :
  host_async_init host = Some err →
  (try_async_init host ∅ placeholders).1 ≠ ∅.
Proof.
  intros Hinit.
  destruct (try_async_init_raises host err placeholders Hinit) as (k & c & -> & _).
  apply insert_non_empty.
Qed.

(** ** The two halves of the step *)

(** After a failed handshake: the client is stopped and the form comes back. *)
Lemma async_step_user_raises self hass user_input err :
  host_async_init (client user_input) = Some err →
  async_step_user ReolinkHost DEFAULT_PROTOCOL self hass (Some user_input) =
    (self, log (log hass Call_async_init) Call_stop,
     user_form self
       (try_async_init (client user_input) ∅ {[ "error" := "" ]}).1
       (try_async_init (client user_input) ∅ {[ "error" := "" ]}).2).
Proof.
  intros Hinit. unfold async_step_user.
  pose proof (try_async_init_raises_nonempty _ _ {[ "error" := "" ]} Hinit) as Hne.
  destruct (try_async_init (client user_input) ∅ {[ "error" := "" ]})
    as [errors placeholders]; simpl in *.
  by destruct (decide (errors = ∅)).
Qed.

(** After a successful handshake: the client is stopped and the duplicate
    check decides. *)
Lemma async_step_user_returns self hass user_input :
  host_async_init (client user_input) = None →
  async_step_user ReolinkHost DEFAULT_PROTOCOL self hass (Some user_input) =
    let host := client user_input in
    let hass := log (log hass Call_async_init) Call_stop in
    let data := captured host user_input in
    let '(self, existing_entry) :=
      async_set_unique_id self hass (host_unique_id host) in
    match existing_entry, _reauth self with
    | Some existing_entry, true =>
        let '(hass, changed) := async_update_entry hass existing_entry data in
        (self,
         if changed then async_reload hass (entry_id existing_entry) else hass,
         FlowResult_abort "reauth_successful")
    | _, _ =>
        match _abort_if_unique_id_configured self hass data with
        | (hass, Some reason) => (self, hass, FlowResult_abort reason)
        | (hass, None) =>
            (self, hass,
             FlowResult_create_entry (Some (api_nvr_name (host_api host)))
               data (Some DEFAULTS))
        end
    end.
Proof.
  intros Hinit. unfold async_step_user.
  rewrite (try_async_init_returns _ _ _ Hinit).
  destruct (decide ((∅ : strdict) = ∅)); [| done].
  cbn zeta. unfold async_set_unique_id.
  destruct (config_entries _ !! _) as [entry|] eqn:Hentry;
    destruct (_reauth self) eqn:Hreauth; cbn [_reauth]; by rewrite ?Hreauth.
Qed.

(** No registration under the client's unique id: an entry is created,
    whether or not the attempt is a reauth. *)
Lemma async_step_user_novel self hass user_input :
  host_async_init (client user_input) = None →
  config_entries hass !! host_unique_id (client user_input) = None →
  async_step_user ReolinkHost DEFAULT_PROTOCOL self hass (Some user_input) =
    (fst (async_set_unique_id self hass (host_unique_id (client user_input))),
     log (log hass Call_async_init) Call_stop,
     FlowResult_create_entry
       (Some (api_nvr_name (host_api (client user_input))))
       (captured (client user_input) user_input)
       (Some DEFAULTS)).
Proof.
  intros Hinit Hnone. rewrite (async_step_user_returns _ _ _ Hinit).
  cbn zeta. unfold async_set_unique_id, _abort_if_unique_id_configured.
  cbn [config_entries log context_unique_id fst]. by rewrite Hnone.
Qed.

(** ** The registry after an update *)

Lemma with_data_same entry : with_data (entry_data entry) entry = entry.
Proof. by destruct entry. Qed.

Lemma async_update_entry_changed hass entry data :
  (async_update_entry hass entry data).2 = true ↔ entry_data entry ≠ data.
Proof.
  unfold async_update_entry. destruct (decide (entry_data entry = data)); simpl.
  - split; [discriminate | contradiction].
  - by split.
Qed.

Lemma async_update_entry_lookup hass unique_id entry data :
  config_entries hass !! unique_id = Some entry →
  config_entries (async_update_entry hass entry data).1 !! unique_id
    = Some (with_data data entry).
Proof.
  intros Hentry. unfold async_update_entry.
  destruct (decide (entry_data entry = data)) as [<- | Hne]; simpl.
  - by rewrite with_data_same.
  - rewrite lookup_fmap, Hentry. simpl. by rewrite decide_True.
Qed.

Lemma async_update_entry_calls hass entry data :
  calls (async_update_entry hass entry data).1 =
    calls hass ++ [Call_async_update_entry (entry_id entry) data].
Proof.
  unfold async_update_entry. by destruct (decide (entry_data entry = data)).
Qed.

(** The calls of the duplicate check: none, or the update of one
    registration, or that update and the reload of the same registration. *)
Lemma abort_if_unique_id_configured_calls self hass updates :
  ∃ rest,
    calls (_abort_if_unique_id_configured self hass updates).1
      = calls hass ++ rest
    ∧ (rest = []
       ∨ ∃ id data,
           rest = [Call_async_update_entry id data]
           ∨ rest = [Call_async_update_entry id data; Call_async_reload id]).
Proof.
  unfold _abort_if_unique_id_configured.
  destruct (context_unique_id self) as [unique_id |];
    [| exists []; by rewrite app_nil_r; split; [| left]].
  destruct (config_entries hass !! unique_id) as [entry |];
    [| exists []; by rewrite app_nil_r; split; [| left]].
  pose proof (async_update_entry_calls hass entry
    (updates ∪ entry_data entry)) as Hcalls.
  destruct (async_update_entry hass entry _) as [hass2 changed].
  cbn [fst] in Hcalls.
  destruct (changed && reloads_on_update (entry_state entry)).
  - eexists [_; _]. split; [| right; eauto].
    destruct (_ && _); cbn [fst async_reload log calls];
      by rewrite Hcalls, <- app_assoc.
  - eexists [_]. split; [| right; eauto].
    by destruct (_ && _).
Qed.

Local Ltac duplicate_check_calls rest Hcalls Hshape :=
  match goal with
  | |- context [_abort_if_unique_id_configured ?self ?hass ?updates] =>
      destruct (abort_if_unique_id_configured_calls self hass updates)
        as (rest & Hcalls & Hshape);
      destruct (_abort_if_unique_id_configured self hass updates)
        as [? [? |]]
  end.

(** ** Duplicate resolution *)

(** C1, amended.  After a successful handshake of an attempt that is not a
    reauth, when a registration with the client's unique id exists, the
    step hands the new data to the duplicate check as updates: the
    registration's data becomes the new data merged over the old, its
    options stay, the update is followed by a reload exactly when it changed
    the data and the registration is loaded or retrying its setup, and the
    step ends with abort(already_configured), unless the registration is an
    ignored one and the user started the flow: then the step returns
    createEntry. *)
Theorem user_duplicate_updates_then_aborts self hass user_input entry :
  host_async_init (client user_input) = None →
  _reauth self = false →
  config_entries hass !! host_unique_id (client user_input) = Some entry →
  let data := captured (client user_input) user_input ∪ entry_data entry in
  let changed :=
    (async_update_entry (log (log hass Call_async_init) Call_stop) entry data).2 in
  let ignored :=
    bool_decide (entry_source entry = SOURCE_IGNORE)
    && bool_decide (context_source self = SOURCE_USER) in
  ∃ self' hass',
    async_step_user ReolinkHost DEFAULT_PROTOCOL self hass (Some user_input)
      = (self', hass',
         if ignored
         then FlowResult_create_entry
                (Some (api_nvr_name (host_api (client user_input))))
                (captured (client user_input) user_input) (Some DEFAULTS)
         else FlowResult_abort "already_configured")
    ∧ config_entries hass' !! host_unique_id (client user_input)
        = Some (with_data data entry)
    ∧ entry_options <$> config_entries hass' !! host_unique_id (client user_input)
        = Some (entry_options entry)
    ∧ calls hass'
        = calls hass
          ++ [Call_async_init; Call_stop;
              Call_async_update_entry (entry_id entry) data]
          ++ (if changed && reloads_on_update (entry_state entry)
              then [Call_async_reload (entry_id entry)] else [])
    ∧ (changed = true ↔ entry_data entry ≠ data).
Proof.
  intros Hinit Hreauth Hentry data changed ignored.
  rewrite (async_step_user_returns _ _ _ Hinit). cbn zeta.
  unfold async_set_unique_id, _abort_if_unique_id_configured.
  cbn [context_unique_id context_source _reauth].
  set (hass1 := log (log hass Call_async_init) Call_stop) in *.
  assert (config_entries hass1 !! host_unique_id (client user_input) = Some entry)
    as Hentry1 by done.
  assert (calls hass1 = calls hass ++ [Call_async_init; Call_stop]) as Hcalls1
    by (simpl; by rewrite <- app_assoc).
  rewrite Hentry1, Hreauth. fold data. fold ignored.
  pose proof (async_update_entry_lookup hass1 _ entry data Hentry1) as Hlookup.
  pose proof (async_update_entry_calls hass1 entry data) as Hcalls.
  pose proof (async_update_entry_changed hass1 entry data) as Hchanged.
  rewrite Hcalls1 in Hcalls. subst changed. clearbody hass1.
  destruct (async_update_entry hass1 entry data) as [hass2 changed].
  cbn [fst snd] in *.
  exists {| _host := _host self; _username := _username self;
            _password := _password self; _reauth := false;
            context_unique_id := Some (host_unique_id (client user_input));
            context_source := context_source self |}.
  exists (if changed && reloads_on_update (entry_state entry)
          then async_reload hass2 (entry_id entry) else hass2).
  split; [by destruct ignored |].
  destruct (changed && reloads_on_update (entry_state entry));
    cbn [async_reload log config_entries calls]; rewrite Hlookup, Hcalls.
  - split_and!; [done | done | | done]. by rewrite <- !app_assoc.
  - split_and!; [done | done | | done]. by rewrite <- !app_assoc.
Qed.

(** C3.  After a successful handshake of a reauth attempt, when a registration
    with the client's unique id exists, its data becomes the new data, the
    step ends with abort(reauth_successful), and the reload of that
    registration is called exactly when [async_update_entry] returned true,
    which is when the new data differs from the old. *)
Theorem reauth_updates_then_reloads_if_changed self hass user_input entry :
  host_async_init (client user_input) = None →
  _reauth self = true →
  config_entries hass !! host_unique_id (client user_input) = Some entry →
  let data := captured (client user_input) user_input in
  let changed :=
    (async_update_entry (log (log hass Call_async_init) Call_stop) entry data).2 in
  ∃ self' hass' made,
    async_step_user ReolinkHost DEFAULT_PROTOCOL self hass (Some user_input)
      = (self', hass', FlowResult_abort "reauth_successful")
    ∧ config_entries hass' !! host_unique_id (client user_input)
        = Some (with_data data entry)
    ∧ calls hass' = calls hass ++ [Call_async_init; Call_stop] ++ made
    ∧ made = Call_async_update_entry (entry_id entry) data
               :: (if changed then [Call_async_reload (entry_id entry)] else [])
    ∧ (Call_async_reload (entry_id entry) ∈ made ↔ changed = true)
    ∧ (changed = true ↔ entry_data entry ≠ data).
Proof.
  intros Hinit Hreauth Hentry data changed.
  rewrite (async_step_user_returns _ _ _ Hinit). cbn zeta.
  unfold async_set_unique_id. fold data.
  set (hass1 := log (log hass Call_async_init) Call_stop) in *.
  assert (config_entries hass1 !! host_unique_id (client user_input) = Some entry)
    as Hentry1 by done.
  assert (calls hass1 = calls hass ++ [Call_async_init; Call_stop]) as Hcalls1
    by (simpl; by rewrite <- app_assoc).
  rewrite Hentry1. cbn [_reauth]. rewrite Hreauth.
  pose proof (async_update_entry_lookup hass1 _ entry data Hentry1) as Hlookup.
  pose proof (async_update_entry_calls hass1 entry data) as Hcalls.
  pose proof (async_update_entry_changed hass1 entry data) as Hchanged.
  rewrite Hcalls1 in Hcalls. subst changed. clearbody hass1.
  destruct (async_update_entry hass1 entry data) as [hass2 [|]]; simpl in *.
  - do 3 eexists. split; [reflexivity |]. simpl.
    rewrite Hcalls, <- !app_assoc. simpl.
    split_and!; [done | done | done | | done].
    split; [done | intros _; apply list_elem_of_further, list_elem_of_here].
  - do 3 eexists. split; [reflexivity |].
    rewrite Hcalls, <- !app_assoc. simpl.
    split_and!; [done | done | done | | done].
    split; [| done].
    by intros [[=] | []%elem_of_nil]%elem_of_cons.
Qed.

(** C5.  After a successful handshake, when no registration with the client's
    unique id exists, the step returns one createEntry result: its title is
    the client's nvr name, its data is the input with the client's port and
    use_https written in, its options are {protocol: default}; the registry
    is not touched and no update or reload is called. *)
Theorem novel_device_creates_entry self hass user_input :
  host_async_init (client user_input) = None →
  config_entries hass !! host_unique_id (client user_input) = None →
  ∃ self' hass' data,
    async_step_user ReolinkHost DEFAULT_PROTOCOL self hass (Some user_input)
      = (self', hass',
         FlowResult_create_entry
           (Some (api_nvr_name (host_api (client user_input)))) data
           (Some {[ CONF_PROTOCOL := VStr DEFAULT_PROTOCOL ]}))
    ∧ data = captured (client user_input) user_input
    ∧ data !! CONF_PORT = Some (VInt (api_port (host_api (client user_input))))
    ∧ data !! CONF_USE_HTTPS
        = Some (VBool (api_use_https (host_api (client user_input))))
    ∧ config_entries hass' = config_entries hass
    ∧ calls hass' = calls hass ++ [Call_async_init; Call_stop].
Proof.
  intros Hinit Hnone. rewrite (async_step_user_novel _ _ _ Hinit Hnone).
  do 3 eexists. split; [reflexivity |].
  split_and!; [done | apply captured_port | apply captured_use_https | done |].
  simpl. by rewrite <- app_assoc.
Qed.

(** C8.  A reauth attempt whose registration no longer exists at the duplicate
    check falls through: the step returns createEntry with the default
    options, not abort(reauth_successful), and calls no update or reload. *)
Theorem reauth_without_registration_creates_entry self hass user_input :
  host_async_init (client user_input) = None →
  _reauth self = true →
  config_entries hass !! host_unique_id (client user_input) = None →
  ∃ self' hass',
    async_step_user ReolinkHost DEFAULT_PROTOCOL self hass (Some user_input)
      = (self', hass',
         FlowResult_create_entry
           (Some (api_nvr_name (host_api (client user_input))))
           (captured (client user_input) user_input)
           (Some DEFAULTS))
    ∧ DEFAULTS = {[ CONF_PROTOCOL := VStr DEFAULT_PROTOCOL ]}
    ∧ config_entries hass' = config_entries hass
    ∧ calls hass' = calls hass ++ [Call_async_init; Call_stop].
Proof.
  intros Hinit _ Hnone. rewrite (async_step_user_novel _ _ _ Hinit Hnone).
  do 2 eexists. split; [reflexivity |].
  split_and!; [done | done |]. simpl. by rewrite <- app_assoc.
Qed.

(** ** Failed handshakes *)

Lemma try_async_init_taxonomy host err placeholders :
  host_async_init host = Some err →
  (try_async_init host ∅ placeholders).1
    = {[ taxonomy_field (condition_of err) := taxonomy_code (condition_of err) ]}.
Proof.
  intros Hinit. unfold try_async_init, condition_of. rewrite Hinit.
  destruct (isinstance err UserNotAdmin); [done |].
  destruct (isinstance err CredentialsInvalidError); [done |].
  destruct (isinstance err ApiError); [done |].
  destruct (isinstance err ReolinkError); [done |].
  by destruct (isinstance err ReolinkException).
Qed.

Lemma try_async_init_placeholders host err :
  host_async_init host = Some err →
  let placeholders := (try_async_init host ∅ {[ "error" := "" ]}).2 in
  match condition_of err with
  | InsufficientPrivilege =>
      placeholders !! "username" = Some (api_username (host_api host))
      ∧ placeholders !! "userlevel" = Some (api_user_level (host_api host))
  | InvalidCredentials => placeholders !! "error" = Some ""
  | _ => placeholders !! "error" = Some (exc_str err)
  end.
Proof.
  intros Hinit. unfold try_async_init, condition_of. rewrite Hinit.
  destruct (isinstance err UserNotAdmin); [by simplify_map_eq |].
  destruct (isinstance err CredentialsInvalidError); [by simplify_map_eq |].
  destruct (isinstance err ApiError); [by simplify_map_eq |].
  destruct (isinstance err ReolinkError); [by simplify_map_eq |].
  destruct (isinstance err ReolinkException); by simplify_map_eq.
Qed.

(** C2, amended.  When the handshake fails, the step returns the form of step
    [user] with a non-empty [errors]; the defaults of its username, password
    and host fields are the attempt's stored [_username], [_password] and
    [_host], whatever was submitted, and the form also offers the optional
    port and use_https fields. *)
Theorem failed_handshake_shows_form self hass user_input err :
  host_async_init (client user_input) = Some err →
  ∃ hass' schema errors placeholders,
    async_step_user ReolinkHost DEFAULT_PROTOCOL self hass (Some user_input)
      = (self, hass',
         FlowResult_form "user" (Some schema) (Some errors) (Some placeholders))
    ∧ errors ≠ ∅
    ∧ schema = [ (Required CONF_USERNAME (_username self), v_str);
                 (Required CONF_PASSWORD (_password self), v_str);
                 (Required CONF_HOST (_host self), v_str);
                 (Optional CONF_PORT, v_positive_int);
                 (Optional CONF_USE_HTTPS, v_bool) ]
    ∧ schema_default schema CONF_USERNAME = Some (_username self)
    ∧ schema_default schema CONF_PASSWORD = Some (_password self)
    ∧ schema_default schema CONF_HOST = Some (_host self).
Proof.
  intros Hinit. rewrite (async_step_user_raises _ _ _ _ Hinit).
  pose proof (try_async_init_raises_nonempty _ _ {[ "error" := "" ]} Hinit) as Hne.
  unfold user_form, async_show_form.
  destruct (decide (_ = ∅)) as [Hempty | _]; [by destruct Hne |].
  do 4 eexists. split; [reflexivity |]. by split_and!.
Qed.

(** C4.  Whatever exception the client raises, the step returns the form of
    step [user] (nothing propagates), and [errors] holds exactly one entry:
    the code of the exception's condition under that condition's field, as
    tabulated; the placeholders carry the observed username and user level
    for not_admin and the message for api_error, cannot_connect and
    unknown. *)
Theorem failure_is_classified self hass user_input err :
  host_async_init (client user_input) = Some err →
  ∃ hass' schema errors placeholders,
    async_step_user ReolinkHost DEFAULT_PROTOCOL self hass (Some user_input)
      = (self, hass',
         FlowResult_form "user" (Some schema) (Some errors) (Some placeholders))
    ∧ errors = {[ taxonomy_field (condition_of err)
                    := taxonomy_code (condition_of err) ]}
    ∧ size errors = 1
    ∧ match condition_of err with
      | InsufficientPrivilege =>
          placeholders !! "username"
            = Some (api_username (host_api (client user_input)))
          ∧ placeholders !! "userlevel"
              = Some (api_user_level (host_api (client user_input)))
      | InvalidCredentials => placeholders !! "error" = Some ""
      | _ => placeholders !! "error" = Some (exc_str err)
      end.
Proof.
  intros Hinit. rewrite (async_step_user_raises _ _ _ _ Hinit).
  unfold user_form, async_show_form. do 4 eexists. split; [reflexivity |].
  rewrite (try_async_init_taxonomy _ _ _ Hinit).
  split_and!; [done | apply map_size_singleton |].
  apply (try_async_init_placeholders _ _ Hinit).
Qed.

(** C9.  A form returned by step [user] has at most one entry in [errors],
    and its key is the username field or the host field. *)
Theorem form_has_at_most_one_error
    self hass user_input self' hass' step_id schema errors placeholders :
  async_step_user ReolinkHost DEFAULT_PROTOCOL self hass user_input
    = (self', hass', FlowResult_form step_id schema (Some errors) placeholders) →
  (size errors ≤ 1)%nat
  ∧ ∀ key, is_Some (errors !! key) → key = CONF_USERNAME ∨ key = CONF_HOST.
Proof.
  destruct user_input as [user_input |].
  - destruct (host_async_init (client user_input)) as [err |] eqn:Hinit.
    + rewrite (async_step_user_raises _ _ _ _ Hinit).
      destruct (try_async_init_raises _ _ {[ "error" := "" ]} Hinit)
        as (key & code & -> & Hkey).
      unfold user_form, async_show_form. intros [= _ _ _ _ <- _].
      split; [by rewrite map_size_singleton |].
      intros key' [code' Hlookup].
      apply lookup_singleton_Some in Hlookup as [<- _].
      apply elem_of_cons in Hkey as [-> | Hkey]; [by left | right].
      apply elem_of_cons in Hkey as [-> | Hkey]; [done |].
      by apply elem_of_nil in Hkey.
    + rewrite (async_step_user_returns _ _ _ Hinit). cbn zeta.
      unfold async_set_unique_id. cbn [_reauth].
      destruct (config_entries _ !! _); destruct (_reauth self);
        try destruct (async_update_entry _ _ _);
        try destruct (_abort_if_unique_id_configured _ _ _) as [? [? |]];
        discriminate.
  - unfold async_step_user, user_form, async_show_form.
    intros [= _ _ _ _ <- _].
    split; [by rewrite map_size_empty; lia |].
    intros key [code Hlookup]. by rewrite lookup_empty in Hlookup.
Qed.

(** ** Where the defaults of the form come from *)

(** Step [reauth] seeds the attempt from the registration's data and shows
    the confirmation; these are the only assignments to [_host], [_username]
    and [_password] after [__init__]. *)
Lemma async_step_reauth_seeds self hass (entry_data : dict) host username password :
  entry_data !! CONF_HOST = Some host →
  entry_data !! CONF_USERNAME = Some username →
  entry_data !! CONF_PASSWORD = Some password →
  ∃ self',
    async_step_reauth ReolinkHost DEFAULT_PROTOCOL self hass entry_data
      = Returned (self', hass, FlowResult_form "reauth_confirm" None None None)
    ∧ _host self' = host
    ∧ _username self' = username
    ∧ _password self' = password
    ∧ _reauth self' = true.
Proof.
  intros Hhost Husername Hpassword. unfold async_step_reauth.
  rewrite Hhost, Husername, Hpassword. eexists. by split_and!.
Qed.

(** Confirming leads to the form of step [user], without errors and with the
    attempt's fields as defaults. *)
Lemma async_step_reauth_confirm_form self hass (user_input : dict) :
  async_step_reauth_confirm ReolinkHost DEFAULT_PROTOCOL self hass
      (Some user_input)
    = (self, hass,
       FlowResult_form "user"
         (Some [ (Required CONF_USERNAME (_username self), v_str);
                 (Required CONF_PASSWORD (_password self), v_str);
                 (Required CONF_HOST (_host self), v_str) ])
         (Some ∅) (Some {[ "error" := "" ]})).
Proof. done. Qed.

(** ** Release of the client *)

(** C6.  Once the client is instantiated, every path of the step calls
    [async_init] and then [stop], and calls [stop] nowhere else: after a
    successful handshake, after each classified failure and after an
    unexpected one. *)
Theorem client_stopped_exactly_once self hass user_input :
  ∃ rest,
    calls (async_step_user ReolinkHost DEFAULT_PROTOCOL self hass
             (Some user_input)).1.2
      = calls hass ++ [Call_async_init; Call_stop] ++ rest
    ∧ Call_stop ∉ rest.
Proof.
  assert (∀ h : HomeAssistant,
    calls (log (log h Call_async_init) Call_stop)
      = calls h ++ [Call_async_init; Call_stop]) as Hlog
    by (intros h; simpl; by rewrite <- app_assoc).
  destruct (host_async_init (client user_input)) as [err |] eqn:Hinit.
  - rewrite (async_step_user_raises _ _ _ _ Hinit). cbn [fst snd]. exists [].
    split; [by rewrite Hlog, app_nil_r | apply not_elem_of_nil].
  - assert (∀ rest : list Call,
      (rest = []
       ∨ ∃ id data,
           rest = [Call_async_update_entry id data]
           ∨ rest = [Call_async_update_entry id data; Call_async_reload id]) →
      Call_stop ∉ rest) as Hnostop.
    { intros rest [-> | (id & data & [-> | ->])].
      - apply not_elem_of_nil.
      - intros [[=] | []%elem_of_nil]%elem_of_cons.
      - intros [[=] | [[=] | []%elem_of_nil]%elem_of_cons]%elem_of_cons. }
    rewrite (async_step_user_returns _ _ _ Hinit). cbn zeta.
    unfold async_set_unique_id. cbn [_reauth].
    set (hass1 := log (log hass Call_async_init) Call_stop).
    assert (calls hass1 = calls hass ++ [Call_async_init; Call_stop]) as Hcalls1
      by apply Hlog.
    clearbody hass1.
    destruct (config_entries hass1 !! _) as [entry |] eqn:Hentry;
      [destruct (_reauth self) |].
    + pose proof (async_update_entry_calls hass1 entry
        (captured (client user_input) user_input)) as Hcalls.
      rewrite Hcalls1 in Hcalls.
      destruct (async_update_entry hass1 entry _) as [hass2 [|]];
        cbn [fst snd async_reload log calls] in *.
      * eexists [_; _]. rewrite Hcalls, <- !app_assoc. split; [done |].
        intros [[=] | [[=] | []%elem_of_nil]%elem_of_cons]%elem_of_cons.
      * eexists [_]. rewrite Hcalls, <- !app_assoc. split; [done |].
        intros [[=] | []%elem_of_nil]%elem_of_cons.
    + duplicate_check_calls rest Hcalls Hshape; cbn [fst snd] in *;
        exists rest; rewrite Hcalls, Hcalls1, <- app_assoc; eauto.
    + duplicate_check_calls rest Hcalls Hshape; cbn [fst snd] in *;
        exists rest; rewrite Hcalls, Hcalls1, <- app_assoc; eauto.
Qed.

(** ** Captured port and transport flag *)


End FlowProperties.

(** * Properties of the options step [init] *)

(** C7.  Submitting the options form twice with the same input: both
    submissions terminate successfully, the first leaves the input as the
    persisted options, and the second leaves the registration as the first
    left it. *)
Theorem options_submission_idempotent entry user_input :
  let first := submit_options entry user_input in
  let second := submit_options first.1 user_input in
  entry_options second.1 = entry_options first.1
  ∧ second.1 = first.1
  ∧ entry_options first.1 = user_input
  ∧ first.2 = true
  ∧ second.2 = true.
Proof. unfold submit_options, options_flow_finish, async_step_init. by simpl. Qed.

(** Section 8: the options step with {protocol: rtmp} on a registration at
    rtsp. *)
Example options_rtsp_to_rtmp :
  submit_options registered_camera {[ CONF_PROTOCOL := VStr "rtmp" ]}
    = ({| entry_id := "entry-1"; entry_title := "Front door";
          entry_data := entry_data registered_camera;
          entry_options := {[ CONF_PROTOCOL := VStr "rtmp" ]};
          entry_source := SOURCE_USER; entry_state := LOADED |}, true).
Proof. reflexivity. Qed.

(** * The statements on the scenarios *)

(** Section 8: valid credentials of an account whose level is "guest". *)
Example guest_is_not_admin :
  async_step_user guest_camera "rtsp" ReolinkFlowHandler_init empty_hass
      (Some wrong_password_input)
    = (ReolinkFlowHandler_init,
       log (log empty_hass Call_async_init) Call_stop,
       FlowResult_form "user"
         (Some [ (Required CONF_USERNAME (VStr "admin"), v_str);
                 (Required CONF_PASSWORD VNone, v_str);
                 (Required CONF_HOST VNone, v_str);
                 (Optional CONF_PORT, v_positive_int);
                 (Optional CONF_USE_HTTPS, v_bool) ])
         (Some {[ CONF_USERNAME := "not_admin" ]})
         (Some (<["userlevel" := "guest"]>
                  (<["username" := "viewer"]> {[ "error" := "" ]})))).
Proof. vm_compute. reflexivity. Qed.

(** C1 as stated fails: the camera is registered with the password "old";
    a second setup of it with the password "secret" ends with
    abort(already_configured), and the registration now holds "secret". *)
Lemma duplicate_registration_is_rewritten :
  host_async_init (accepting_camera override_input (DEFAULT_OPTIONS "rtsp"))
    = None
  ∧ _reauth ReolinkFlowHandler_init = false
  ∧ config_entries hass_with_camera !! "ec71db000001" = Some registered_camera
  ∧ ¬ duplicate_left_untouched hass_with_camera "ec71db000001"
        (async_step_user accepting_camera "rtsp" ReolinkFlowHandler_init
           hass_with_camera (Some override_input)).
Proof.
  split_and!; [done | done | done |].
  intros (_ & Hdata & _).
  apply (f_equal (λ data : option dict, data ≫= (.!! CONF_PASSWORD))) in Hdata.
  vm_compute in Hdata. discriminate.
Qed.

Lemma user_duplicate_updates_then_aborts_witness :
  ∃ self' hass' entry',
    async_step_user accepting_camera "rtsp" ReolinkFlowHandler_init
        hass_with_camera (Some override_input)
      = (self', hass', FlowResult_abort "already_configured")
    ∧ config_entries hass' !! "ec71db000001" = Some entry'
    ∧ entry_data entry' !! CONF_PASSWORD = Some (VStr "secret")
    ∧ entry_options entry' = {[ CONF_PROTOCOL := VStr "rtsp" ]}
    ∧ Call_async_reload "entry-1" ∈ calls hass'.
Proof.
  destruct (user_duplicate_updates_then_aborts accepting_camera "rtsp"
              ReolinkFlowHandler_init hass_with_camera override_input
              registered_camera eq_refl eq_refl eq_refl)
    as (self' & hass' & Hstep & Hlookup & _ & Hcalls & _).
  eexists self', hass', _.
  split_and!; [exact Hstep | exact Hlookup | reflexivity | reflexivity |].
  rewrite Hcalls. apply elem_of_app. right. apply elem_of_app. right.
  assert (entry_data registered_camera
          ≠ <[CONF_USE_HTTPS := VBool true]>
              (<[CONF_PORT := VInt 443]> override_input)
            ∪ entry_data registered_camera) as Hchanged.
  { intros Hsame.
    apply (f_equal (λ data : dict, data !! CONF_PASSWORD)) in Hsame.
    vm_compute in Hsame. discriminate. }
  unfold async_update_entry. rewrite decide_False by exact Hchanged.
  apply list_elem_of_here.
Defined.

(** A device that was ignored when discovered and is now set up by the
    user: the duplicate check lets the flow create the entry. *)
Example ignored_camera_is_set_up :
  (async_step_user accepting_camera "rtsp" ReolinkFlowHandler_init
     hass_with_ignored_camera (Some override_input)).2
    = FlowResult_create_entry (Some "Front door")
        (<[CONF_USE_HTTPS := VBool true]>
           (<[CONF_PORT := VInt 443]> override_input))
        (Some {[ CONF_PROTOCOL := VStr "rtsp" ]}).
Proof. vm_compute. reflexivity. Qed.

(** C2 as stated fails: the camera rejects the credentials of "operator",
    and the form that comes back proposes "admin", not "operator". *)
Lemma rejected_input_is_not_the_default :
  host_async_init
      (rejecting_camera wrong_password_input (DEFAULT_OPTIONS "rtsp")) ≠ None
  ∧ ¬ form_keeps_input
        (async_step_user rejecting_camera "rtsp" ReolinkFlowHandler_init
           empty_hass (Some wrong_password_input)).2
        wrong_password_input.
Proof.
  split; [done |].
  intros (schema & errors & placeholders & Hform & _ & Hdefaults).
  rewrite (async_step_user_raises rejecting_camera "rtsp" _ _ _ _ eq_refl)
    in Hform.
  unfold user_form, async_show_form in Hform. cbn [snd] in Hform.
  destruct (decide (_ = ∅)) as [Hempty | _] in Hform.
  { by apply (try_async_init_raises_nonempty (rejecting_camera _ _) _ _ eq_refl)
      in Hempty. }
  injection Hform as <- _ _.
  specialize (Hdefaults CONF_USERNAME (list_elem_of_here _ _)).
  vm_compute in Hdefaults. discriminate.
Qed.

Lemma failed_handshake_shows_form_witness :
  ∃ hass' schema errors placeholders,
    async_step_user rejecting_camera "rtsp" ReolinkFlowHandler_init empty_hass
        (Some wrong_password_input)
      = (ReolinkFlowHandler_init, hass',
         FlowResult_form "user" (Some schema) (Some errors) (Some placeholders))
    ∧ errors ≠ ∅
    ∧ schema = [ (Required CONF_USERNAME (VStr "admin"), v_str);
                 (Required CONF_PASSWORD VNone, v_str);
                 (Required CONF_HOST VNone, v_str);
                 (Optional CONF_PORT, v_positive_int);
                 (Optional CONF_USE_HTTPS, v_bool) ]
    ∧ schema_default schema CONF_USERNAME = Some (VStr "admin")
    ∧ schema_default schema CONF_PASSWORD = Some VNone
    ∧ schema_default schema CONF_HOST = Some VNone.
Proof.
  apply (failed_handshake_shows_form rejecting_camera "rtsp"
           ReolinkFlowHandler_init empty_hass wrong_password_input
           {| exc_classes := [CredentialsInvalidError; ReolinkError];
              exc_str := "Login failed" |}).
  reflexivity.
Defined.

Lemma reauth_updates_then_reloads_if_changed_witness :
  ∃ self' hass' made,
    async_step_user accepting_camera "rtsp" reauth_flow hass_with_camera
        (Some override_input)
      = (self', hass', FlowResult_abort "reauth_successful")
    ∧ calls hass' = [Call_async_init; Call_stop] ++ made
    ∧ Call_async_reload "entry-1" ∈ made.
Proof.
  destruct (reauth_updates_then_reloads_if_changed accepting_camera "rtsp"
              reauth_flow hass_with_camera override_input registered_camera
              eq_refl eq_refl eq_refl)
    as (self' & hass' & made & Hstep & _ & Hcalls & _ & Hreload & Hchanged).
  exists self', hass', made. split_and!; [done | done |].
  apply Hreload, Hchanged. intros Hsame.
  apply (f_equal (λ data : dict, data !! CONF_PASSWORD)) in Hsame.
  vm_compute in Hsame. discriminate.
Defined.

Lemma failure_is_classified_witness :
  ∃ hass' schema placeholders,
    async_step_user rejecting_camera "rtsp" ReolinkFlowHandler_init empty_hass
        (Some wrong_password_input)
      = (ReolinkFlowHandler_init, hass',
         FlowResult_form "user" (Some schema)
           (Some {[ CONF_HOST := "invalid_auth" ]}) (Some placeholders))
    ∧ placeholders !! "error" = Some "".
Proof.
  destruct (failure_is_classified rejecting_camera "rtsp"
              ReolinkFlowHandler_init empty_hass wrong_password_input
              {| exc_classes := [CredentialsInvalidError; ReolinkError];
                 exc_str := "Login failed" |} eq_refl)
    as (hass' & schema & errors & placeholders & Hstep & -> & _ & Hplace).
  by exists hass', schema, placeholders.
Defined.

Lemma novel_device_creates_entry_witness :
  ∃ self' hass' data,
    async_step_user accepting_camera "rtsp" ReolinkFlowHandler_init empty_hass
        (Some override_input)
      = (self', hass',
         FlowResult_create_entry (Some "Front door") data
           (Some {[ CONF_PROTOCOL := VStr "rtsp" ]}))
    ∧ data !! CONF_PORT = Some (VInt 443)
    ∧ data !! CONF_USE_HTTPS = Some (VBool true)
    ∧ config_entries hass' = ∅
    ∧ calls hass' = [Call_async_init; Call_stop].
Proof.
  destruct (novel_device_creates_entry accepting_camera "rtsp"
              ReolinkFlowHandler_init empty_hass override_input
              eq_refl eq_refl)
    as (self' & hass' & data & Hstep & _ & Hport & Hhttps & Hentries & Hcalls).
  by exists self', hass', data.
Defined.

Lemma reauth_without_registration_creates_entry_witness :
  ∃ self' hass' data,
    async_step_user accepting_camera "rtsp" reauth_flow empty_hass
        (Some override_input)
      = (self', hass',
         FlowResult_create_entry (Some "Front door") data
           (Some {[ CONF_PROTOCOL := VStr "rtsp" ]}))
    ∧ config_entries hass' = ∅
    ∧ calls hass' = [Call_async_init; Call_stop].
Proof.
  destruct (reauth_without_registration_creates_entry accepting_camera "rtsp"
              reauth_flow empty_hass override_input eq_refl eq_refl eq_refl)
    as (self' & hass' & Hstep & _ & Hentries & Hcalls).
  eexists self', hass', _. split; [exact Hstep | by split].
Defined.

(** Section 8: a valid account that is not an administrator. *)
Lemma form_has_at_most_one_error_witness :
  (size ({[ CONF_USERNAME := "not_admin" ]} : strdict) ≤ 1)%nat
  ∧ ∀ key,
      is_Some (({[ CONF_USERNAME := "not_admin" ]} : strdict) !! key) →
      key = CONF_USERNAME ∨ key = CONF_HOST.
Proof.
  apply (form_has_at_most_one_error guest_camera "rtsp"
           ReolinkFlowHandler_init empty_hass (Some wrong_password_input)
           ReolinkFlowHandler_init
           (log (log empty_hass Call_async_init) Call_stop)
           "user"
           (Some [ (Required CONF_USERNAME (VStr "admin"), v_str);
                   (Required CONF_PASSWORD VNone, v_str);
                   (Required CONF_HOST VNone, v_str);
                   (Optional CONF_PORT, v_positive_int);
                   (Optional CONF_USE_HTTPS, v_bool) ])
           {[ CONF_USERNAME := "not_admin" ]}
           (Some (<["userlevel" := "guest"]>
                    (<["username" := "viewer"]> {[ "error" := "" ]})))).
  vm_compute. reflexivity.
Defined.


(** * Further properties of the flow *)

Section FlowCoverage.

Variable ReolinkHost : dict → dict → ReolinkHostObj.
Variable DEFAULT_PROTOCOL : string.

Local Abbreviation DEFAULTS := (DEFAULT_OPTIONS DEFAULT_PROTOCOL).
Local Abbreviation client user_input := (ReolinkHost user_input DEFAULTS).
Local Abbreviation captured host user_input :=
  (<[CONF_USE_HTTPS := VBool (api_use_https (host_api host))]>
     (<[CONF_PORT := VInt (api_port (host_api host))]> user_input)).
Local Abbreviation credentials self :=
  [ (Required CONF_USERNAME (_username self), v_str);
    (Required CONF_PASSWORD (_password self), v_str);
    (Required CONF_HOST (_host self), v_str) ].
Local Abbreviation overrides :=
  [ (Optional CONF_PORT, v_positive_int); (Optional CONF_USE_HTTPS, v_bool) ].
Local Abbreviation released hass := (log (log hass Call_async_init) Call_stop).

(** ** The paths of step [user] *)

(** The four ways a submission ends: the handshake fails; it succeeds on a
    reauth with a registration to repair; it succeeds on a duplicate, which
    the duplicate check updates and, unless it is an ignored one in a flow
    of the user, reports; it succeeds on a new device. *)
Lemma async_step_user_cases self hass user_input :
  let host := client user_input in
  let self1 :=
    (async_set_unique_id self (released hass) (host_unique_id host)).1 in
  let data := captured host user_input in
  (∃ err,
     host_async_init host = Some err
     ∧ async_step_user ReolinkHost DEFAULT_PROTOCOL self hass (Some user_input)
         = (self, released hass,
            user_form self
              (try_async_init host ∅ {[ "error" := "" ]}).1
              (try_async_init host ∅ {[ "error" := "" ]}).2))
  ∨ (∃ entry,
       host_async_init host = None
       ∧ config_entries hass !! host_unique_id host = Some entry
       ∧ _reauth self = true
       ∧ async_step_user ReolinkHost DEFAULT_PROTOCOL self hass (Some user_input)
           = (self1,
              (if (async_update_entry (released hass) entry data).2
               then async_reload (async_update_entry (released hass) entry data).1
                      (entry_id entry)
               else (async_update_entry (released hass) entry data).1),
              FlowResult_abort "reauth_successful"))
  ∨ (∃ entry,
       host_async_init host = None
       ∧ config_entries hass !! host_unique_id host = Some entry
       ∧ _reauth self = false
       ∧ async_step_user ReolinkHost DEFAULT_PROTOCOL self hass (Some user_input)
           = (self1,
              (_abort_if_unique_id_configured self1 (released hass) data).1,
              if bool_decide (entry_source entry = SOURCE_IGNORE)
                 && bool_decide (context_source self = SOURCE_USER)
              then FlowResult_create_entry
                     (Some (api_nvr_name (host_api host))) data (Some DEFAULTS)
              else FlowResult_abort "already_configured"))
  ∨ (host_async_init host = None
     ∧ config_entries hass !! host_unique_id host = None
     ∧ async_step_user ReolinkHost DEFAULT_PROTOCOL self hass (Some user_input)
         = (self1, released hass,
            FlowResult_create_entry (Some (api_nvr_name (host_api host))) data
              (Some DEFAULTS))).
Proof.
  intros host self1 data.
  destruct (host_async_init host) as [err |] eqn:Hinit.
  { left. exists err. split; [done |]. by apply async_step_user_raises with err. }
  right.
  destruct (config_entries hass !! host_unique_id host) as [entry |] eqn:Hentry.
  - destruct (_reauth self) eqn:Hreauth.
    + left. exists entry. split_and!; try done.
      rewrite (async_step_user_returns _ _ _ _ _ Hinit). cbn zeta.
      unfold async_set_unique_id. cbn [config_entries log _reauth].
      fold host. subst self1 data. unfold async_set_unique_id. cbn [fst].
      rewrite Hentry, Hreauth.
      by destruct (async_update_entry _ entry _) as [hass2 [|]].
    + right. left. exists entry. split_and!; try done.
      rewrite (async_step_user_returns _ _ _ _ _ Hinit). cbn zeta.
      subst self1 data. unfold async_set_unique_id. cbn [fst _reauth].
      fold host. cbn [config_entries log]. rewrite Hentry, Hreauth.
      unfold _abort_if_unique_id_configured.
      cbn [context_unique_id context_source].
      change (config_entries (released hass)) with (config_entries hass).
      rewrite Hentry.
      destruct (async_update_entry _ entry _) as [hass2 changed].
      by destruct (bool_decide _ && bool_decide _).
  - right. right. split_and!; try done.
    by apply async_step_user_novel.
Qed.

Lemma try_async_init_keeps_error_key host (placeholders : strdict) :
  is_Some (placeholders !! "error") →
  is_Some ((try_async_init host ∅ placeholders).2 !! "error").
Proof.
  intros Hkey. unfold try_async_init.
  destruct (host_async_init host) as [err |]; [| done].
  destruct (isinstance err UserNotAdmin);
    [cbn [snd]; by rewrite !lookup_insert_ne |].
  destruct (isinstance err CredentialsInvalidError); [done |].
  destruct (isinstance err ApiError);
    [cbn [snd]; by rewrite lookup_insert_eq |].
  destruct (isinstance err ReolinkError || isinstance err ReolinkException);
    cbn [snd]; by rewrite lookup_insert_eq.
Qed.

(** ** Forms *)

(** X1.  Whenever step [user] returns a form, it is the form of step [user]:
    its schema is the three required fields username, password and host with
    the attempt's stored values as defaults, followed by the optional port
    and use_https exactly when [errors] is not empty; the placeholders have
    the key "error"; and [errors] is empty exactly when no input was given. *)
Theorem step_user_form_shape
    self hass user_input self' hass' step_id schema errors placeholders :
  async_step_user ReolinkHost DEFAULT_PROTOCOL self hass user_input
    = (self', hass', FlowResult_form step_id schema errors placeholders) →
  step_id = "user"
  ∧ ∃ e p,
      errors = Some e
      ∧ placeholders = Some p
      ∧ is_Some (p !! "error")
      ∧ schema
          = Some (credentials self ++ if decide (e = ∅) then [] else overrides)
      ∧ (e = ∅ ↔ user_input = None).
Proof.
  destruct user_input as [user_input |].
  - destruct (async_step_user_cases self hass user_input)
      as [(err & Hinit & ->) | [(entry & _ & _ & _ & ->)
         | [(entry & _ & _ & _ & ->) | (_ & _ & ->)]]];
      try destruct (bool_decide _ && bool_decide _); try discriminate.
    pose proof (try_async_init_raises_nonempty _ _ {[ "error" := "" ]} Hinit)
      as Hne.
    pose proof (try_async_init_keeps_error_key (client user_input)
      {[ "error" := "" ]}) as Hkey.
    unfold user_form, async_show_form in *.
    destruct (decide (_ = ∅)) as [Hempty | _]; [by destruct Hne |].
    intros [= <- <- <- <- <- <-]. split; [done |].
    do 2 eexists. split_and!; try done.
    + apply Hkey. by rewrite lookup_singleton_eq.
    + by rewrite decide_False.
  - unfold async_step_user, user_form, async_show_form.
    rewrite decide_True by done. intros [= <- <- <- <- <- <-].
    split; [done |]. exists ∅, {[ "error" := "" ]}.
    by split_and!.
Qed.

(** X12.  A submission ends with a form exactly when the handshake failed:
    after a successful handshake the result is terminal, and after a failed
    one the user stays at the form. *)
Theorem form_iff_handshake_failed self hass user_input :
  (∃ step_id schema errors placeholders,
     (async_step_user ReolinkHost DEFAULT_PROTOCOL self hass
        (Some user_input)).2
       = FlowResult_form step_id schema errors placeholders)
  ↔ host_async_init (client user_input) ≠ None.
Proof.
  destruct (async_step_user_cases self hass user_input)
    as [(err & Hinit & ->) | [(entry & Hinit & _ & _ & ->)
       | [(entry & Hinit & _ & _ & ->) | (Hinit & _ & ->)]]];
    rewrite Hinit; cbn [snd].
  - split; [done | intros _]. unfold user_form, async_show_form. eauto.
  - split; [by intros (? & ? & ? & ? & [=]) | done].
  - destruct (bool_decide _ && bool_decide _);
      (split; [by intros (? & ? & ? & ? & [=]) | done]).
  - split; [by intros (? & ? & ? & ? & [=]) | done].
Qed.

(** ** What a submission leaves alone *)

(** X2.  Unless a handshake succeeds, step [user] changes neither the flow
    object nor the registry, and makes no call to the registry: with no
    input it calls nothing, after a failed handshake it has called
    [async_init] and [stop] only. *)
Theorem nothing_changes_without_success self hass user_input :
  (∀ submitted, user_input = Some submitted →
     host_async_init (client submitted) ≠ None) →
  let after := async_step_user ReolinkHost DEFAULT_PROTOCOL self hass user_input in
  after.1.1 = self
  ∧ config_entries after.1.2 = config_entries hass
  ∧ calls after.1.2
      = calls hass ++ match user_input with
                      | Some _ => [Call_async_init; Call_stop]
                      | None => []
                      end.
Proof.
  intros Hfails. destruct user_input as [user_input |]; cbn zeta.
  - destruct (host_async_init (client user_input)) as [err |] eqn:Hinit;
      [| by destruct (Hfails user_input)].
    rewrite (async_step_user_raises _ _ _ _ _ _ Hinit). cbn [fst snd].
    split_and!; [done | done |]. simpl. by rewrite <- app_assoc.
  - unfold async_step_user. cbn [fst snd]. by rewrite app_nil_r.
Qed.

Lemma async_step_user_keeps_fields self hass user_input :
  let self' :=
    (async_step_user ReolinkHost DEFAULT_PROTOCOL self hass user_input).1.1 in
  _host self' = _host self
  ∧ _username self' = _username self
  ∧ _password self' = _password self
  ∧ _reauth self' = _reauth self.
Proof.
  destruct user_input as [user_input |]; [| done].
  destruct (async_step_user_cases self hass user_input)
    as [(err & _ & ->) | [(entry & _ & _ & _ & ->)
       | [(entry & _ & _ & _ & ->) | (_ & _ & ->)]]]; done.
Qed.

Lemma async_step_user_proposes self hass user_input :
  proposes (_username self) (_password self) (_host self)
    (async_step_user ReolinkHost DEFAULT_PROTOCOL self hass user_input).2.
Proof.
  destruct user_input as [user_input |].
  - destruct (async_step_user_cases self hass user_input)
      as [(err & _ & ->) | [(entry & _ & _ & _ & ->)
         | [(entry & _ & _ & _ & ->) | (_ & _ & ->)]]];
      try destruct (bool_decide _ && bool_decide _); try done.
    cbn [snd]. unfold user_form, async_show_form, proposes.
    by destruct (decide (_ = ∅)).
  - done.
Qed.

(** X6.  A successful reauth rewrites only the data of the registration: its
    id, title and options stay, and every key of the new data other than
    port and use_https holds what was submitted. *)
Theorem reauth_keeps_rest_of_registration self hass user_input entry :
  host_async_init (client user_input) = None →
  _reauth self = true →
  config_entries hass !! host_unique_id (client user_input) = Some entry →
  ∃ entry',
    config_entries
        (async_step_user ReolinkHost DEFAULT_PROTOCOL self hass
           (Some user_input)).1.2
      !! host_unique_id (client user_input) = Some entry'
    ∧ entry_id entry' = entry_id entry
    ∧ entry_title entry' = entry_title entry
    ∧ entry_options entry' = entry_options entry
    ∧ ∀ key, key ≠ CONF_PORT → key ≠ CONF_USE_HTTPS →
        entry_data entry' !! key = user_input !! key.
Proof.
  intros Hinit Hreauth Hentry.
  destruct (async_step_user_cases self hass user_input)
    as [(err & Hinit' & _) | [(entry0 & _ & Hentry0 & _ & ->)
       | [(entry0 & _ & _ & Hreauth' & _) | (_ & Hnone & _)]]];
    [congruence | | congruence | congruence].
  assert (entry0 = entry) as -> by congruence.
  exists (with_data (captured (client user_input) user_input) entry).
  split.
  - cbn [fst snd].
    pose proof (async_update_entry_lookup (released hass) _ entry
      (captured (client user_input) user_input) Hentry) as Hlookup.
    by destruct (async_update_entry _ entry _) as [hass2 [|]].
  - split_and!; try done. intros key Hport Hhttps. simpl.
    by rewrite !lookup_insert_ne.
Qed.

(** ** The calls of a submission *)

(** X7.  The client is released before the registry is called, and a reload
    only follows an update of the same registration: the calls of a
    submission are [async_init], [stop], then nothing, or one update, or
    one update and the reload of the updated entry; anything after [stop]
    happens only after a successful handshake on a device that has a
    registration, be the attempt a reauth (the step updates it) or not (the
    duplicate check does). *)
Theorem registry_calls_follow_release self hass user_input :
  ∃ rest,
    calls (async_step_user ReolinkHost DEFAULT_PROTOCOL self hass
             (Some user_input)).1.2
      = calls hass ++ [Call_async_init; Call_stop] ++ rest
    ∧ (rest = []
       ∨ ∃ id data,
           rest = [Call_async_update_entry id data]
           ∨ rest = [Call_async_update_entry id data; Call_async_reload id])
    ∧ (rest ≠ [] →
       host_async_init (client user_input) = None
       ∧ is_Some
           (config_entries hass !! host_unique_id (client user_input))).
Proof.
  assert (calls (released hass) = calls hass ++ [Call_async_init; Call_stop])
    as Hreleased by (simpl; by rewrite <- app_assoc).
  destruct (async_step_user_cases self hass user_input)
    as [(err & _ & ->) | [(entry & Hinit & Hentry & _ & ->)
       | [(entry & Hinit & Hentry & _ & ->) | (_ & _ & ->)]]]; cbn [fst snd].
  - exists []. rewrite Hreleased, app_nil_r. by split_and!; [| left |].
  - pose proof (async_update_entry_calls (released hass) entry
      (captured (client user_input) user_input)) as Hcalls.
    rewrite Hreleased in Hcalls.
    destruct (async_update_entry _ entry _) as [hass2 [|]];
      cbn [fst snd async_reload log calls] in *.
    + eexists [_; _]. rewrite Hcalls, <- !app_assoc.
      split_and!; [done | right; eauto | by rewrite Hentry].
    + eexists [_]. rewrite Hcalls, <- !app_assoc.
      split_and!; [done | right; eauto | by rewrite Hentry].
  - match goal with
    | |- context [_abort_if_unique_id_configured ?s ?h ?u] =>
        destruct (abort_if_unique_id_configured_calls s h u)
          as (rest & Hcalls & Hshape)
    end.
    exists rest. rewrite Hcalls, Hreleased, <- app_assoc.
    split_and!; [done | done | by rewrite Hentry].
  - exists []. rewrite Hreleased, app_nil_r. by split_and!; [| left |].
Qed.

(** ** Terminal results *)

(** X5.  Every createEntry result of step [user] comes from a submitted
    input whose handshake succeeded; its title is the client's nvr name, its
    options are {protocol: default} whatever the input held, and its data is
    the input with the client's port and use_https: every other key holds
    what was submitted. *)
Theorem every_created_entry
    self hass user_input self' hass' title data options :
  async_step_user ReolinkHost DEFAULT_PROTOCOL self hass user_input
    = (self', hass', FlowResult_create_entry title data options) →
  ∃ submitted,
    user_input = Some submitted
    ∧ host_async_init (client submitted) = None
    ∧ title = Some (api_nvr_name (host_api (client submitted)))
    ∧ options = Some {[ CONF_PROTOCOL := VStr DEFAULT_PROTOCOL ]}
    ∧ data !! CONF_PORT = Some (VInt (api_port (host_api (client submitted))))
    ∧ data !! CONF_USE_HTTPS
        = Some (VBool (api_use_https (host_api (client submitted))))
    ∧ ∀ key, key ≠ CONF_PORT → key ≠ CONF_USE_HTTPS →
        data !! key = submitted !! key.
Proof.
  destruct user_input as [user_input |]; [| discriminate].
  destruct (async_step_user_cases self hass user_input)
    as [(err & _ & ->) | [(entry & _ & _ & _ & ->)
       | [(entry & Hinit & _ & _ & ->) | (Hinit & _ & ->)]]];
    try destruct (bool_decide _ && bool_decide _); try discriminate.
  all: intros [= _ _ <- <- <-]; exists user_input.
  all: split_and!; try done;
    [ by rewrite lookup_insert_ne, lookup_insert_eq
    | by rewrite lookup_insert_eq
    | intros key Hport Hhttps; by rewrite !lookup_insert_ne ].
Qed.

(** X13.  abort(reauth_successful) is returned only to a reauth attempt
    whose handshake succeeded and whose registration exists. *)
Theorem reauth_successful_only_for_reauth self hass user_input self' hass' :
  async_step_user ReolinkHost DEFAULT_PROTOCOL self hass user_input
    = (self', hass', FlowResult_abort "reauth_successful") →
  _reauth self = true
  ∧ ∃ submitted entry,
      user_input = Some submitted
      ∧ host_async_init (client submitted) = None
      ∧ config_entries hass !! host_unique_id (client submitted) = Some entry.
Proof.
  destruct user_input as [user_input |]; [| discriminate].
  destruct (async_step_user_cases self hass user_input)
    as [(err & _ & ->) | [(entry & Hinit & Hentry & Hreauth & ->)
       | [(entry & _ & _ & _ & ->) | (_ & _ & ->)]]];
    try destruct (bool_decide _ && bool_decide _); try discriminate.
  intros _. split; [done |]. by exists user_input, entry.
Qed.

(** ** Order of the handlers *)

(** X3.  The handler of [UserNotAdmin] comes first: an exception that is an
    instance of it, whatever else it is an instance of, gives not_admin on
    the username field, with the client's username and user level as
    placeholders and without the exception's message. *)
Theorem not_admin_comes_first self hass user_input err :
  host_async_init (client user_input) = Some err →
  isinstance err UserNotAdmin = true →
  (async_step_user ReolinkHost DEFAULT_PROTOCOL self hass (Some user_input)).2
    = FlowResult_form "user"
        (Some (credentials self ++ overrides))
        (Some {[ CONF_USERNAME := "not_admin" ]})
        (Some (<["userlevel" := api_user_level (host_api (client user_input))]>
                 (<["username" := api_username (host_api (client user_input))]>
                    {[ "error" := "" ]}))).
Proof.
  intros Hinit Hadmin.
  rewrite (async_step_user_raises _ _ _ _ _ _ Hinit). cbn [snd].
  unfold try_async_init. rewrite Hinit, Hadmin. cbn [fst snd].
  unfold user_form, async_show_form. by rewrite decide_False.
Qed.

(** ** Step [reauth] *)

Local Ltac no_value :=
  match goal with H : is_Some None |- _ => by destruct H as [? [=]] end.

(** X8.  Step [reauth] reads host, username and password from the
    registration's data, in that order: it raises [KeyError] for the first
    of them that is missing, and otherwise shows the confirmation without
    touching [hass]. *)
Theorem async_step_reauth_key_error self hass (entry_data : dict) :
  let outcome :=
    async_step_reauth ReolinkHost DEFAULT_PROTOCOL self hass entry_data in
  (entry_data !! CONF_HOST = None → outcome = KeyError CONF_HOST)
  ∧ (is_Some (entry_data !! CONF_HOST) →
     entry_data !! CONF_USERNAME = None → outcome = KeyError CONF_USERNAME)
  ∧ (is_Some (entry_data !! CONF_HOST) →
     is_Some (entry_data !! CONF_USERNAME) →
     entry_data !! CONF_PASSWORD = None → outcome = KeyError CONF_PASSWORD)
  ∧ ((∃ self',
        outcome = Returned
          (self', hass, FlowResult_form "reauth_confirm" None None None))
     ↔ ∀ key, key ∈ [CONF_HOST; CONF_USERNAME; CONF_PASSWORD] →
         is_Some (entry_data !! key)).
Proof.
  cbn zeta. unfold async_step_reauth.
  destruct (entry_data !! CONF_HOST) as [host |] eqn:Hhost;
    destruct (entry_data !! CONF_USERNAME) as [username |] eqn:Husername;
    destruct (entry_data !! CONF_PASSWORD) as [password |] eqn:Hpassword.
  all: split_and!; try (intros; first [done | no_value]).
  all: split.
  all: try (intros [self' Hreturned]; discriminate Hreturned).
  all: try (intros Hall;
    pose proof (Hall CONF_HOST (list_elem_of_here _ _)) as Hall1;
    pose proof (Hall CONF_USERNAME
      (list_elem_of_further _ _ _ (list_elem_of_here _ _))) as Hall2;
    pose proof (Hall CONF_PASSWORD
      (list_elem_of_further _ _ _
         (list_elem_of_further _ _ _ (list_elem_of_here _ _)))) as Hall3;
    rewrite ?Hhost in Hall1; rewrite ?Husername in Hall2;
    rewrite ?Hpassword in Hall3; no_value).
  - intros _ key Hkey.
    repeat (apply elem_of_cons in Hkey as [-> | Hkey]);
      [by rewrite Hhost | by rewrite Husername | by rewrite Hpassword
      | by apply elem_of_nil in Hkey].
  - intros _. by eexists.
Qed.

(** X9.  The repair of a registration, from end to end: step [reauth] on the
    registration's data shows the confirmation; confirming, with any input,
    shows the form of step [user] with the registration's username, password
    and host as defaults, without errors and without a call to the device;
    a submission whose handshake succeeds then ends with
    abort(reauth_successful) and the registration holds the new data. *)
Theorem reauth_end_to_end
    self hass entry confirm_input user_input host username password :
  entry_data entry !! CONF_HOST = Some host →
  entry_data entry !! CONF_USERNAME = Some username →
  entry_data entry !! CONF_PASSWORD = Some password →
  config_entries hass !! host_unique_id (client user_input) = Some entry →
  host_async_init (client user_input) = None →
  ∃ self1 self2 hass2,
    async_step_reauth ReolinkHost DEFAULT_PROTOCOL self hass (entry_data entry)
      = Returned (self1, hass, FlowResult_form "reauth_confirm" None None None)
    ∧ async_step_reauth_confirm ReolinkHost DEFAULT_PROTOCOL self1 hass
          (Some confirm_input)
        = (self1, hass,
           FlowResult_form "user"
             (Some [ (Required CONF_USERNAME username, v_str);
                     (Required CONF_PASSWORD password, v_str);
                     (Required CONF_HOST host, v_str) ])
             (Some ∅) (Some {[ "error" := "" ]}))
    ∧ async_step_user ReolinkHost DEFAULT_PROTOCOL self1 hass (Some user_input)
        = (self2, hass2, FlowResult_abort "reauth_successful")
    ∧ config_entries hass2 !! host_unique_id (client user_input)
        = Some (with_data (captured (client user_input) user_input) entry).
Proof.
  intros Hhost Husername Hpassword Hentry Hinit.
  destruct (async_step_reauth_seeds ReolinkHost DEFAULT_PROTOCOL self hass
              (entry_data entry) host username password
              Hhost Husername Hpassword)
    as (self1 & Hstep & <- & <- & <- & Hreauth).
  destruct (async_step_user_cases self1 hass user_input)
    as [(err & Hinit' & _) | [(entry0 & _ & Hentry0 & _ & Huser)
       | [(entry0 & _ & _ & Hreauth' & _) | (_ & Hnone & _)]]];
    [congruence | | congruence | congruence].
  assert (entry0 = entry) as -> by congruence.
  do 3 eexists. split_and!; [exact Hstep | done | exact Huser |].
  pose proof (async_update_entry_lookup (released hass) _ entry
    (captured (client user_input) user_input) Hentry) as Hlookup.
  by destruct (async_update_entry _ entry _) as [hass2 [|]].
Qed.

End FlowCoverage.

(** ** Successive submissions *)

(** X4.  However many times step [user] is called on a flow object, with
    whatever inputs and whatever the device answers, the attempt's host,
    username, password and reauth mark stay as they were, and every form
    returned proposes those same stored values: nothing submitted ever
    becomes a default. *)
Theorem user_steps_keep_proposing DEFAULT_PROTOCOL submissions self hass :
  let after := user_steps DEFAULT_PROTOCOL self hass submissions in
  _host after.1.1 = _host self
  ∧ _username after.1.1 = _username self
  ∧ _password after.1.1 = _password self
  ∧ _reauth after.1.1 = _reauth self
  ∧ Forall (proposes (_username self) (_password self) (_host self)) after.2.
Proof.
  cbn zeta. revert self hass.
  induction submissions as [| [ReolinkHost user_input] submissions IH];
    intros self hass; [by split_and! |].
  cbn [user_steps].
  pose proof (async_step_user_keeps_fields ReolinkHost DEFAULT_PROTOCOL
    self hass user_input) as (Hhost & Husername & Hpassword & Hreauth).
  pose proof (async_step_user_proposes ReolinkHost DEFAULT_PROTOCOL
    self hass user_input) as Hresult.
  destruct (async_step_user ReolinkHost DEFAULT_PROTOCOL self hass user_input)
    as [[self1 hass1] result]. cbn [fst snd] in *.
  specialize (IH self1 hass1).
  destruct (user_steps DEFAULT_PROTOCOL self1 hass1 submissions)
    as [[self2 hass2] results]. cbn [fst snd] in *.
  destruct IH as (IHhost & IHusername & IHpassword & IHreauth & IHresults).
  rewrite Hhost, Husername, Hpassword in IHresults.
  split_and!; [congruence | congruence | congruence | congruence |].
  by constructor.
Qed.


(** * Further properties of the options step *)

(** X10.  Without input the options step shows the form of step [init], one
    required field protocol among rtsp, rtmp and flv, with the
    registration's current protocol as default; it raises [KeyError] exactly
    when the registration's options have no protocol. *)
Theorem options_form_or_key_error entry :
  let outcome := async_step_init (async_get_options_flow entry) None in
  (outcome = KeyError CONF_PROTOCOL
   ↔ entry_options entry !! CONF_PROTOCOL = None)
  ∧ ∀ current,
      entry_options entry !! CONF_PROTOCOL = Some current
      ↔ outcome
          = Returned
              (FlowResult_form "init"
                 (Some [ (Required CONF_PROTOCOL current,
                          v_In ["rtsp"; "rtmp"; "flv"]) ])
                 None None).
Proof.
  cbn zeta. unfold async_step_init, async_get_options_flow, async_show_form.
  cbn [config_entry ReolinkOptionsFlowHandler_init].
  destruct (entry_options entry !! CONF_PROTOCOL) as [current |].
  - split; [done |]. intros current'. split; [by intros [= <-] |].
    by intros [= <-].
  - split; [done |]. intros current'. by split.
Qed.

(** X11.  After a submission of the options form, the form shown next
    proposes the submitted protocol; the step does not check its input, and
    after an input without the protocol key the next form raises
    [KeyError]. *)
Theorem options_form_after_submission entry user_input :
  async_step_init
      (async_get_options_flow (submit_options entry user_input).1) None
    = match user_input !! CONF_PROTOCOL with
      | Some protocol =>
          Returned
            (FlowResult_form "init"
               (Some [ (Required CONF_PROTOCOL protocol,
                        v_In ["rtsp"; "rtmp"; "flv"]) ])
               None None)
      | None => KeyError CONF_PROTOCOL
      end.
Proof. done. Qed.

(** * The further statements on the scenarios *)

Lemma step_user_form_shape_witness :
  ∃ e p : strdict,
    e = {[ CONF_USERNAME := "not_admin" ]}
    ∧ is_Some (p !! "error")
    ∧ e ≠ ∅.
Proof.
  destruct (step_user_form_shape guest_camera "rtsp" ReolinkFlowHandler_init
              empty_hass (Some wrong_password_input) _ _ _ _ _ _
              guest_is_not_admin)
    as (_ & e & p & [= <-] & _ & Hkey & _ & Hempty).
  exists {[ CONF_USERNAME := "not_admin" ]}, p.
  split_and!; [done | done |]. intros Hnone. by apply Hempty in Hnone.
Defined.

Lemma nothing_changes_without_success_witness :
  calls (async_step_user rejecting_camera "rtsp" ReolinkFlowHandler_init
           empty_hass (Some wrong_password_input)).1.2
    = [Call_async_init; Call_stop].
Proof.
  refine (proj2 (proj2 (nothing_changes_without_success rejecting_camera "rtsp"
    ReolinkFlowHandler_init empty_hass (Some wrong_password_input) _))).
  by intros submitted [= <-].
Defined.

Lemma every_created_entry_witness :
  override_input !! CONF_PROTOCOL = None
  ∧ ∃ data,
      (async_step_user accepting_camera "rtsp" ReolinkFlowHandler_init
         empty_hass (Some override_input)).2
        = FlowResult_create_entry (Some "Front door") data
            (Some {[ CONF_PROTOCOL := VStr "rtsp" ]})
      ∧ data !! CONF_PASSWORD = Some (VStr "secret").
Proof.
  split; [reflexivity |]. eexists. split; [reflexivity |].
  edestruct (every_created_entry accepting_camera "rtsp"
               ReolinkFlowHandler_init empty_hass (Some override_input))
    as (submitted & [= <-] & _ & _ & _ & _ & _ & Hkeys); [reflexivity |].
  by rewrite Hkeys.
Defined.

Lemma reauth_keeps_rest_of_registration_witness :
  ∃ entry',
    config_entries
        (async_step_user accepting_camera "rtsp" reauth_flow hass_with_camera
           (Some override_input)).1.2 !! "ec71db000001" = Some entry'
    ∧ entry_id entry' = "entry-1"
    ∧ entry_options entry' = {[ CONF_PROTOCOL := VStr "rtsp" ]}
    ∧ entry_data entry' !! CONF_PASSWORD = Some (VStr "secret").
Proof.
  destruct (reauth_keeps_rest_of_registration accepting_camera "rtsp"
              reauth_flow hass_with_camera override_input registered_camera
              eq_refl eq_refl eq_refl)
    as (entry' & Hlookup & Hid & _ & Hoptions & Hkeys).
  exists entry'. split_and!; [done | done | done |]. by rewrite Hkeys.
Defined.

Lemma reauth_successful_only_for_reauth_witness :
  _reauth reauth_flow = true
  ∧ ∃ submitted entry,
      Some override_input = Some submitted
      ∧ host_async_init (accepting_camera submitted (DEFAULT_OPTIONS "rtsp"))
          = None
      ∧ config_entries hass_with_camera
          !! host_unique_id (accepting_camera submitted (DEFAULT_OPTIONS "rtsp"))
          = Some entry.
Proof.
  eapply (reauth_successful_only_for_reauth accepting_camera "rtsp" reauth_flow
            hass_with_camera (Some override_input)).
  reflexivity.
Defined.

(** An exception that is at once an [ApiError], a
    [CredentialsInvalidError] and a [UserNotAdmin]. *)
Lemma not_admin_comes_first_witness :
  let camera (config options : dict) :=
    {| host_async_init :=
         Some {| exc_classes := [ApiError; CredentialsInvalidError; UserNotAdmin];
                 exc_str := "denied" |};
       host_api := camera_api; host_unique_id := "" |} in
  (async_step_user camera "rtsp" ReolinkFlowHandler_init empty_hass
     (Some wrong_password_input)).2
    = FlowResult_form "user"
        (Some [ (Required CONF_USERNAME (VStr "admin"), v_str);
                (Required CONF_PASSWORD VNone, v_str);
                (Required CONF_HOST VNone, v_str);
                (Optional CONF_PORT, v_positive_int);
                (Optional CONF_USE_HTTPS, v_bool) ])
        (Some {[ CONF_USERNAME := "not_admin" ]})
        (Some (<["userlevel" := "admin"]>
                 (<["username" := "admin"]> {[ "error" := "" ]}))).
Proof.
  intros camera.
  exact (not_admin_comes_first camera "rtsp" ReolinkFlowHandler_init empty_hass
           wrong_password_input
           {| exc_classes := [ApiError; CredentialsInvalidError; UserNotAdmin];
              exc_str := "denied" |} eq_refl eq_refl).
Defined.

Lemma reauth_end_to_end_witness :
  ∃ self1 self2 hass2,
    async_step_reauth accepting_camera "rtsp" ReolinkFlowHandler_init
        hass_with_camera (entry_data registered_camera)
      = Returned
          (self1, hass_with_camera,
           FlowResult_form "reauth_confirm" None None None)
    ∧ async_step_reauth_confirm accepting_camera "rtsp" self1 hass_with_camera
          (Some ∅)
        = (self1, hass_with_camera,
           FlowResult_form "user"
             (Some [ (Required CONF_USERNAME (VStr "admin"), v_str);
                     (Required CONF_PASSWORD (VStr "old"), v_str);
                     (Required CONF_HOST (VStr "192.168.1.50"), v_str) ])
             (Some ∅) (Some {[ "error" := "" ]}))
    ∧ async_step_user accepting_camera "rtsp" self1 hass_with_camera
          (Some override_input)
        = (self2, hass2, FlowResult_abort "reauth_successful")
    ∧ entry_data <$> config_entries hass2 !! "ec71db000001"
        = Some (<[CONF_USE_HTTPS := VBool true]>
                  (<[CONF_PORT := VInt 443]> override_input)).
Proof.
  destruct (reauth_end_to_end accepting_camera "rtsp" ReolinkFlowHandler_init
              hass_with_camera registered_camera ∅ override_input
              (VStr "192.168.1.50") (VStr "admin") (VStr "old")
              eq_refl eq_refl eq_refl eq_refl eq_refl)
    as (self1 & self2 & hass2 & Hreauth & Hconfirm & Huser & Hlookup).
  exists self1, self2, hass2. split_and!; [done | done | done |].
  cbn [host_unique_id accepting_camera] in Hlookup. by rewrite Hlookup.
Defined.
